(** * H5PEditor.SemanticStructure: the base class of the semantic fields

    A shallow embedding of [scripts/h5peditor-semantic-structure.js] and the
    properties of its widget resolution, label handling, widget replacement,
    mounting and error reporting.

    The embedding follows the source function by function.  What the source
    keeps in closure variables ([$wrapper], [$errors], [widgets], ...) and on
    [self] is a field of [state]; the calls the source makes on its
    collaborators (the widget instances, the event dispatcher, the container
    handed to [appendTo]) are recorded, in order, in the [trace] of the
    state. *)

From stdpp Require Import gmap strings list pretty.

Set Warnings "-register-all".

(** ** Script values *)

(** The values a field descriptor of [semantics.json] is made of, plus
    [undefined].  Numbers are the integer fragment. *)
Inductive value : Type :=
| VUndefined
| VNull
| VBool (b : bool)
| VNum (n : Z)
| VStr (s : string)
| VArr (xs : list value)
| VObj (props : gmap string value).

(** Exceptions.  The source throws one itself ([TypeError('widgets must be an
    array')]); the others are raised by the engine on a property read of
    [undefined] or [null] and on [new] of something that is no constructor. *)
Inductive exn : Type :=
| TypeError (message : string).

Inductive result (A : Type) : Type :=
| Ok (a : A)
| Throw (e : exn).
Arguments Ok {A} a.
Arguments Throw {A} e.

#[global] Instance result_ret : MRet result := @Ok.
#[global] Instance result_bind : MBind result := λ A B f r,
  match r with
  | Ok a => f a
  | Throw e => Throw e
  end.

(** [v === undefined] *)
Definition is_undefined (v : value) : bool :=
  match v with VUndefined => true | _ => false end.

(** [v === 0] *)
Definition is_zero (v : value) : bool :=
  match v with VNum 0 => true | _ => false end.

(** [v instanceof Array] *)
Definition is_array (v : value) : bool :=
  match v with VArr _ => true | _ => false end.

Definition is_nullish (v : value) : bool :=
  match v with VUndefined | VNull => true | _ => false end.

(** Truthiness, as tested by [if (v)]. *)
Definition truthy (v : value) : bool :=
  match v with
  | VUndefined | VNull => false
  | VBool b => b
  | VNum n => negb (n =? 0)%Z
  | VStr s => negb (String.eqb s "")
  | VArr _ | VObj _ => true
  end.

(** String conversion, as applied to a property key and by [+] on a string. *)
Fixpoint to_string (v : value) : string :=
  match v with
  | VUndefined => "undefined"
  | VNull => "null"
  | VBool true => "true"
  | VBool false => "false"
  | VNum n => pretty n
  | VStr s => s
  | VArr xs =>
      (fix join (l : list value) : string :=
         match l with
         | [] => ""
         | x :: l' =>
             (match x with VUndefined | VNull => "" | _ => to_string x end) +:+
             (match l' with [] => "" | _ => "," +:+ join l' end)
         end) xs
  | VObj _ => "[object Object]"
  end.

(** The value of property [k] of a value that has properties, for the keys
    this file reads ([name], [label], [description], [type], [widgets]): the
    stored value or [undefined] on an object, and [undefined] on arrays and
    primitives, which define none of these keys. *)
Definition prop (v : value) (k : string) : value :=
  match v with
  | VObj props => default VUndefined (props !! k)
  | _ => VUndefined
  end.

(** Property read [v.k]: a [TypeError] on [undefined] and [null]. *)
Definition get (v : value) (k : string) : result value :=
  if is_nullish v
  then Throw (TypeError ("Cannot read properties of " +:+ to_string v))
  else Ok (prop v k).

(** The candidates whose [name] can be read. *)
Definition readable (ws : list value) : Prop :=
  Forall (λ w, is_nullish w = false) ws.

(** ** The collaborators *)

(** A widget class as this file consumes it: constructible with the field
    wrapper as its argument, its instances have [appendTo], [remove] and an
    optional [helpText] ([VUndefined] when the widget declares none). *)
Record widget_class : Type := {
  class_name : string;
  class_helpText : value
}.

(** An instance made by [new widget(self)]; [inst_id] is its identity. *)
Record instance : Type := {
  inst_id : nat;
  inst_class : widget_class
}.

(** What [H5PEditor[name]] evaluates to: a widget class, or a value that is
    no function (on which [new] throws a [TypeError]).  A function that [new]
    accepts but whose instances are no widgets (the namespace also holds
    [SemanticStructure] itself and helpers such as [t]) is not represented:
    the namespaces covered are those in which the names that reach
    [changeWidget] denote widget classes, values that are no functions, or
    nothing. *)
Inductive member : Type :=
| MWidget (c : widget_class)
| MData (v : value).

Definition truthy_member (m : member) : bool :=
  match m with
  | MWidget _ => true
  | MData v => truthy v
  end.

(** The element made by [H5PEditor.createError(message)]. *)
Inductive error_entry : Type :=
| ErrorEntry (message : value).

Definition createError (message : value) : error_entry := ErrorEntry message.

(** The elements this file places in [$wrapper].  What a widget appends to
    the wrapper and takes away again is the widget's own and is not listed. *)
Inductive node : Type :=
| LabelEl
| ErrorsEl
| DescriptionEl
| HelpTextEl.

#[global] Instance node_eq_dec : EqDecision node.
Proof. solve_decision. Defined.

(** [$el.appendTo($wrapper)]: the element becomes the last child; an element
    that is already a child is moved. *)
Definition attach (n : node) (children : list node) : list node :=
  filter (λ m, m ≠ n) children ++ [n].

(** An [<option/>] of the select box. *)
Record option_el : Type := {
  opt_value : value;
  opt_text : value
}.

(** The calls made on the collaborators. *)
Inductive event : Type :=
| EvSelectorAppendTo (container : nat)
    (* $widgetSelectLabel.add($widgetSelect).appendTo($container) *)
| EvWidgetRemove (i : nat)                  (* self.widget.remove() *)
| EvWidgetNew (c : widget_class) (i : nat)  (* new widget(self) *)
| EvTrigger (name : string)                 (* self.trigger(name) *)
| EvWidgetAppendTo (i : nat)                (* self.widget.appendTo($wrapper) *)
| EvWrapperAppendTo (container : nat).      (* $wrapper.appendTo($container) *)

(** ** The state of one field wrapper *)

Record state : Type := {
  field : value;                          (* the descriptor, captured *)
  self : gmap string value;               (* data properties of [self] *)
  self_widget : option instance;          (* [self.widget]; [None] is undefined *)
  widgetSelect : option (list option_el); (* [$widgetSelect] and its options *)
  widgetSelectLabel : option value;       (* text of [$widgetSelectLabel] *)
  wrapper_class : string;                 (* class attribute of [$wrapper] *)
  wrapper : list node;                    (* this file's elements in [$wrapper] *)
  errors : list error_entry;              (* children of [$errors] *)
  description : option value;             (* text of [$description] *)
  helpText : value;                       (* text of [$helpText] *)
  widgets : list value;                   (* the resolved candidates *)
  instances : nat;                        (* widget instances made so far *)
  trace : list event
}.

Definition set_self_widget (w : option instance) (s : state) : state :=
  {| field := field s; self := self s; self_widget := w;
     widgetSelect := widgetSelect s; widgetSelectLabel := widgetSelectLabel s;
     wrapper_class := wrapper_class s; wrapper := wrapper s;
     errors := errors s; description := description s; helpText := helpText s;
     widgets := widgets s; instances := instances s; trace := trace s |}.

Definition set_wrapper (w : list node) (s : state) : state :=
  {| field := field s; self := self s; self_widget := self_widget s;
     widgetSelect := widgetSelect s; widgetSelectLabel := widgetSelectLabel s;
     wrapper_class := wrapper_class s; wrapper := w;
     errors := errors s; description := description s; helpText := helpText s;
     widgets := widgets s; instances := instances s; trace := trace s |}.

Definition set_errors (e : list error_entry) (s : state) : state :=
  {| field := field s; self := self s; self_widget := self_widget s;
     widgetSelect := widgetSelect s; widgetSelectLabel := widgetSelectLabel s;
     wrapper_class := wrapper_class s; wrapper := wrapper s;
     errors := e; description := description s; helpText := helpText s;
     widgets := widgets s; instances := instances s; trace := trace s |}.

Definition set_helpText (h : value) (s : state) : state :=
  {| field := field s; self := self s; self_widget := self_widget s;
     widgetSelect := widgetSelect s; widgetSelectLabel := widgetSelectLabel s;
     wrapper_class := wrapper_class s; wrapper := wrapper s;
     errors := errors s; description := description s; helpText := h;
     widgets := widgets s; instances := instances s; trace := trace s |}.

Definition set_instances (n : nat) (s : state) : state :=
  {| field := field s; self := self s; self_widget := self_widget s;
     widgetSelect := widgetSelect s; widgetSelectLabel := widgetSelectLabel s;
     wrapper_class := wrapper_class s; wrapper := wrapper s;
     errors := errors s; description := description s; helpText := helpText s;
     widgets := widgets s; instances := n; trace := trace s |}.

Definition set_trace (t : list event) (s : state) : state :=
  {| field := field s; self := self s; self_widget := self_widget s;
     widgetSelect := widgetSelect s; widgetSelectLabel := widgetSelectLabel s;
     wrapper_class := wrapper_class s; wrapper := wrapper s;
     errors := errors s; description := description s; helpText := helpText s;
     widgets := widgets s; instances := instances s; trace := t |}.

(** Methods run on the state and may throw; the state reached when an
    exception leaves a method stays (the object outlives the call). *)
Definition M (A : Type) : Type := state → result A * state.

#[global] Instance M_ret : MRet M := λ A a s, (Ok a, s).
#[global] Instance M_bind : MBind M := λ A B f m s,
  match m s with
  | (Ok a, s') => f a s'
  | (Throw e, s') => (Throw e, s')
  end.

Definition gets {A : Type} (f : state → A) : M A := λ s, (Ok (f s), s).
Definition modify (f : state → state) : M unit := λ s, (Ok tt, f s).
Definition throw {A : Type} (e : exn) : M A := λ s, (Throw e, s).
Definition lift {A : Type} (r : result A) : M A := λ s, (r, s).
Definition emit (e : event) : M unit :=
  modify (λ s, set_trace (trace s ++ [e]) s).

(** ** Which instances are live *)

(** An instance is live from its construction to its [remove()]. *)
Definition track (live : list nat) (e : event) : list nat :=
  match e with
  | EvWidgetNew _ i => live ++ [i]
  | EvWidgetRemove i => filter (λ j, j ≠ i) live
  | _ => live
  end.

Definition active (tr : list event) : list nat := foldl track [] tr.

(** At most one instance is live after every event of [tr], starting with the
    instances [live]. *)
Fixpoint one_at_a_time (live : list nat) (tr : list event) : bool :=
  match tr with
  | [] => true
  | e :: tr' =>
      bool_decide (length (track live e) ≤ 1) && one_at_a_time (track live e) tr'
  end.

Definition is_trigger (name : string) (e : event) : bool :=
  match e with
  | EvTrigger n => String.eqb n name
  | _ => false
  end.

Definition count_triggers (name : string) (tr : list event) : nat :=
  length (filter (λ e, is_trigger name e = true) tr).

Section SemanticStructure.

(** The namespace object: [H5PEditor !! k] is what [H5PEditor[k]] finds,
    [None] when it finds nothing. *)
Variable H5PEditor : gmap string member.

(** [H5PEditor.t(library, key)], the translation helper. *)
Variable H5PEditor_t : string → string → value.

(** Lines 133-135. *)
Definition getWidget (name : value) : member :=
  default (MData VUndefined) (H5PEditor !! to_string name).

(** The loop of lines 111-116, [validWidgets] being the array built so
    far. *)
Fixpoint collectValid (ws validWidgets : list value) : result (list value) :=
  match ws with
  | [] => Ok validWidgets
  | widget :: rest =>
      name ← get widget "name";
      if truthy_member (getWidget name)
      then collectValid rest (validWidgets ++ [widget])
      else collectValid rest validWidgets
  end.

(** Lines 100-124.  [this_] holds the data properties of [self]. *)
Definition getValidWidgets (field defaultWidget : value)
    (this_ : gmap string value) : result (list value) :=
  w ← get field "widgets";
  if is_undefined w then Ok [defaultWidget]
  else
    match w with
    | VArr ws =>
        validWidgets ← collectValid ws [];
        if bool_decide (length validWidgets = 0)
        then Ok (validWidgets ++ [default VUndefined (this_ !! "default")])
        else Ok validWidgets
    | _ => Throw (TypeError "widgets must be an array")
    end.

(** The loop of lines 48-54. *)
Fixpoint buildOptions (ws : list value) : result (list option_el) :=
  match ws with
  | [] => Ok []
  | widget :: rest =>
      n ← get widget "name";
      l ← get widget "label";
      os ← buildOptions rest;
      Ok ({| opt_value := n; opt_text := l |} :: os)
  end.

(** [H5P.EventDispatcher.call(self)] installs the event methods ([on],
    [once], [off], [trigger]) and no data property. *)
Definition EventDispatcher_call : gmap string value := ∅.

(** The constructor, lines 15-221: line 25, then [init] (lines 37-91). *)
Definition SemanticStructure (field defaultWidget : value) : result state :=
  let this0 := EventDispatcher_call in
  l ← get field "label";
  label ← (if is_undefined l then get field "name" else Ok l);
  let this1 := <["label" := label]> this0 in
  (* init *)
  ws ← getValidWidgets field defaultWidget this1;
  select ← (if bool_decide (1 < length ws)
            then os ← buildOptions ws; Ok (Some os)
            else Ok None);
  ty ← get field "type";
  fl ← get field "label";
  d ← get field "description";
  Ok {| field := field;
        self := this1;
        self_widget := None;
        widgetSelect := select;
        widgetSelectLabel :=
          if bool_decide (1 < length ws)
          then Some (H5PEditor_t "core" "editMode") else None;
        wrapper_class := "field " +:+ to_string ty;
        wrapper := if is_zero fl then [] else [LabelEl];
        errors := [];
        description := if is_undefined d then None else Some d;
        helpText := VStr "";
        widgets := ws;
        instances := 0;
        trace := [] |}.

(** Lines 143-161.  On a widget class, [new] (line 151), the instance's
    [appendTo] (line 153) and [remove] (line 146) return; on a value that is
    no function, [new] throws. *)
Definition changeWidget (name : value) : M unit :=
  old ← gets self_widget;
  match old with
  | Some w => emit (EvWidgetRemove (inst_id w))
  | None => mret tt
  end;;
  match getWidget name with
  | MWidget c =>
      i ← gets instances;
      emit (EvWidgetNew c i);;
      modify (λ s, set_self_widget (Some {| inst_id := i; inst_class := c |})
                     (set_instances (S i) s));;
      emit (EvTrigger "changeWidget");;
      emit (EvWidgetAppendTo i);;
      modify (λ s, set_wrapper (attach ErrorsEl (wrapper s)) s);;
      d ← gets description;
      match d with
      | Some _ => modify (λ s, set_wrapper (attach DescriptionEl (wrapper s)) s)
      | None => mret tt
      end;;
      modify (set_helpText (if is_undefined (class_helpText c)
                            then VStr "" else class_helpText c));;
      modify (λ s, set_wrapper (attach HelpTextEl (wrapper s)) s)
  | MData _ => throw (TypeError "widget is not a constructor")
  end.

(** Lines 169-179. *)
Definition appendTo (container : nat) : M unit :=
  select ← gets widgetSelect;
  match select with
  | Some _ => emit (EvSelectorAppendTo container)
  | None => mret tt
  end;;
  ws ← gets widgets;
  name ← lift (get (default VUndefined (ws !! 0)) "name");
  changeWidget name;;
  emit (EvWrapperAppendTo container).

(** The change handler of the select box, lines 45-47.  [val] is what
    [$widgetSelect.val()] reports, which jQuery determines: the value
    attribute of the option picked or, for an option without one (a candidate
    whose [name] is undefined or null), its text. *)
Definition selectChange (val : value) : M unit :=
  select ← gets widgetSelect;
  match select with
  | Some _ => changeWidget val
  | None => mret tt
  end.

(** Lines 186-188. *)
Definition remove : M unit :=
  w ← gets self_widget;
  match w with
  | Some w => emit (EvWidgetRemove (inst_id w))
  | None => throw (TypeError "Cannot read properties of undefined")
  end.

(** Lines 196-198. *)
Definition setError (message : value) : M unit :=
  modify (λ s, set_errors (errors s ++ [createError message]) s).

(** Lines 205-207. *)
Definition clearErrors : M unit :=
  modify (set_errors []).

(** Lines 215-217. *)
Definition getName : M value :=
  f ← gets field;
  lift (get f "name").

(** What the host and the author can do with a constructed wrapper. *)
Inductive op : Type :=
| OpAppendTo (container : nat)
| OpSelect (val : value)
| OpRemove
| OpSetError (message : value)
| OpClearErrors.

Definition run_op (o : op) (s : state) : state :=
  match o with
  | OpAppendTo c => snd (appendTo c s)
  | OpSelect val => snd (selectChange val s)
  | OpRemove => snd (remove s)
  | OpSetError m => snd (setError m s)
  | OpClearErrors => snd (clearErrors s)
  end.

(** The states a wrapper goes through after its construction. *)
Inductive reachable (s0 : state) : state → Prop :=
| reach_init : reachable s0 s0
| reach_step s o : reachable s0 s → reachable s0 (run_op o s).

(** Whether a declared candidate resolves: its [name] is found, truthy, in
    the namespace. *)
Definition resolves (widget : value) : bool :=
  match get widget "name" with
  | Ok name => truthy_member (getWidget name)
  | Throw _ => false
  end.

End SemanticStructure.

(** ** The events of a widget change

    Stated apart from the code, to compare [changeWidget] with. *)

(** The release of the instance [self.widget] holds, if it holds one. *)
Definition release (s : state) : list event :=
  match self_widget s with
  | Some w => [EvWidgetRemove (inst_id w)]
  | None => []
  end.

(** The construction of an instance of the member [m] in state [s], its
    announcement and its mounting; nothing when [m] is no widget class. *)
Definition construction (s : state) (m : member) : list event :=
  match m with
  | MWidget c =>
      [EvWidgetNew c (instances s); EvTrigger "changeWidget";
       EvWidgetAppendTo (instances s)]
  | MData _ => []
  end.

(** The attachment of the selector controls, if there are any. *)
Definition selector_attach (container : nat) (s : state) : list event :=
  match widgetSelect s with
  | Some _ => [EvSelectorAppendTo container]
  | None => []
  end.

(** The operations that only report or clear errors. *)
Definition reports_only (o : op) : bool :=
  match o with
  | OpSetError _ | OpClearErrors => true
  | _ => false
  end.

(** The identity of the instance [self.widget] holds. *)
Definition held (s : state) : list nat :=
  match self_widget s with
  | Some w => [inst_id w]
  | None => []
  end.

(** The invariant of the reachable states: at most one instance was live at
    every point of the trace, and a live instance is the one [self.widget]
    holds. *)
Definition consistent (s : state) : Prop :=
  one_at_a_time [] (trace s) = true ∧
  ∀ i, i ∈ active (trace s) → i ∈ held s.

(** ** The presentation and the history of a wrapper

    Stated apart from the code, to compare the reachable states with. *)

(** The children of the wrapper before any widget was mounted: the label,
    unless the descriptor suppresses it. *)
Definition initial_layout (field : value) : list node :=
  if is_zero (prop field "label") then [] else [LabelEl].

(** The children of the wrapper once a widget was mounted. *)
Definition mounted_layout (field : value) : list node :=
  initial_layout field ++ [ErrorsEl] ++
  (if is_undefined (prop field "description") then [] else [DescriptionEl]) ++
  [HelpTextEl].

(** The text [changeWidget] gives the help element for a widget class. *)
Definition shown_helpText (c : widget_class) : value :=
  if is_undefined (class_helpText c) then VStr "" else class_helpText c.

(** What the reachable states keep of the presentation: the descriptor and
    the description, the children of the wrapper and the help text, the last
    two following the widget held. *)
Definition presented (f : value) (s : state) : Prop :=
  field s = f ∧
  description s =
    (if is_undefined (prop f "description") then None
     else Some (prop f "description")) ∧
  wrapper s =
    match self_widget s with
    | None => initial_layout f
    | Some _ => mounted_layout f
    end ∧
  helpText s =
    match self_widget s with
    | None => VStr ""
    | Some w => shown_helpText (inst_class w)
    end.

(** The state after a sequence of operations. *)
Definition run_ops (H5PEditor : gmap string member) (ops : list op)
    (s : state) : state :=
  foldl (λ st o, run_op H5PEditor o st) s ops.

(** The error entries a sequence of operations leaves to be shown: those
    reported since the last clearing. *)
Definition pending_errors (ops : list op) : list error_entry :=
  foldl (λ es o,
           match o with
           | OpSetError m => es ++ [createError m]
           | OpClearErrors => []
           | _ => es
           end) [] ops.

(** The number of widget instances constructed along a trace. *)
Definition is_new (e : event) : bool :=
  match e with
  | EvWidgetNew _ _ => true
  | _ => false
  end.

Definition count_new (tr : list event) : nat :=
  length (filter (λ e, is_new e = true) tr).

(** ** Concrete descriptors used to evaluate the code *)

Definition text_widget : widget_class :=
  {| class_name := "text"; class_helpText := VUndefined |}.
Definition html_widget : widget_class :=
  {| class_name := "html"; class_helpText := VStr "Rich text" |}.

(** A namespace with the widgets [text] and [html] loaded. *)
Definition ex_H5PEditor : gmap string member :=
  {[ "text" := MWidget text_widget; "html" := MWidget html_widget ]}.

Definition ex_t (library key : string) : value := VStr key.

(** [{name: n, label: l}] *)
Definition candidate (n l : string) : value :=
  VObj {[ "name" := VStr n; "label" := VStr l ]}.

Definition ex_default : value := candidate "text" "Text".

(** [{name: "title", type: "text"}] *)
Definition ex_plain : value :=
  VObj {[ "name" := VStr "title"; "type" := VStr "text" ]}.

(** [{name: "title", type: "text", widgets: [{name: "text", ...},
    {name: "nope", ...}, {name: "html", ...}]}] *)
Definition ex_two : value :=
  VObj {[ "name" := VStr "title"; "type" := VStr "text";
          "widgets" := VArr [candidate "text" "Text"; candidate "nope" "Nope";
                             candidate "html" "Html"] ]}.

(** [{name: "title", type: "text", widgets: [{name: "nope", label: "Nope"}]}] *)
Definition ex_unregistered : value :=
  VObj {[ "name" := VStr "title"; "type" := VStr "text";
          "widgets" := VArr [candidate "nope" "Nope"] ]}.

(** [{name: "title", type: "text", widgets: "text"}] *)
Definition ex_not_array : value :=
  VObj {[ "name" := VStr "title"; "type" := VStr "text";
          "widgets" := VStr "text" ]}.

(** [{name: "title", type: "text", label: 0}] *)
Definition ex_no_label : value :=
  VObj {[ "name" := VStr "title"; "type" := VStr "text"; "label" := VNum 0 ]}.

(** * Properties *)

(** ** Property reads *)

Lemma get_Ok v k : is_nullish v = false → get v k = Ok (prop v k).
Proof. unfold get. by intros ->. Qed.

Lemma get_Ok_inv v k x : get v k = Ok x → is_nullish v = false ∧ x = prop v k.
Proof. unfold get. destruct (is_nullish v); naive_solver. Qed.

Lemma get_Throw v k : is_nullish v = true → ∃ e, get v k = Throw e.
Proof. unfold get. intros ->. eauto. Qed.

Section Resolution.

Variable H5PEditor : gmap string member.
Variable H5PEditor_t : string → string → value.

(** The loop keeps what it had and adds, in order, the candidates that
    resolve. *)
Lemma collectValid_filter ws acc :
  readable ws →
  collectValid H5PEditor ws acc = Ok (acc ++ filter (λ w, resolves H5PEditor w) ws).
Proof.
  intros Hws. revert acc.
  induction Hws as [|w ws Hw _ IH]; intros acc; simpl.
  - by rewrite app_nil_r.
  - rewrite (get_Ok _ _ Hw). simpl.
    assert (resolves H5PEditor w = truthy_member (getWidget H5PEditor (prop w "name"))) as Hr.
    { unfold resolves. by rewrite (get_Ok _ _ Hw). }
    destruct (truthy_member _) eqn:Ht; rewrite IH.
    + rewrite filter_cons_True; [|by rewrite Hr]. by rewrite <- app_assoc.
    + rewrite filter_cons_False; [done|]. rewrite Hr. by intros [].
Qed.

(** The loop completes only when it could read every candidate's name. *)
Lemma collectValid_Ok_inv ws acc vs :
  collectValid H5PEditor ws acc = Ok vs → readable ws.
Proof.
  revert acc. induction ws as [|w ws IH]; intros acc; simpl.
  - intros _. constructor.
  - destruct (get w "name") as [n|e] eqn:Hn; simpl; [|done].
    apply get_Ok_inv in Hn as [Hw _].
    destruct (truthy_member _); intros H; constructor; try done;
      by eapply IH.
Qed.


(** [self.default] is read from an object on which only [label] was set. *)
Lemma self_default_undefined (l : value) :
  default VUndefined ((<["label" := l]> (∅ : gmap string value)) !! "default")
  = VUndefined.
Proof. by rewrite lookup_insert_ne. Qed.

Lemma getValidWidgets_absent field dw this_ :
  get field "widgets" = Ok VUndefined →
  getValidWidgets H5PEditor field dw this_ = Ok [dw].
Proof. unfold getValidWidgets. by intros ->. Qed.

Lemma getValidWidgets_array field dw this_ ws :
  get field "widgets" = Ok (VArr ws) → readable ws →
  getValidWidgets H5PEditor field dw this_ =
    Ok (if bool_decide (length (filter (λ w, resolves H5PEditor w) ws) = 0)
        then [default VUndefined (this_ !! "default")]
        else filter (λ w, resolves H5PEditor w) ws).
Proof.
  unfold getValidWidgets. intros -> Hws. simpl.
  rewrite (collectValid_filter _ _ Hws). simpl.
  case_bool_decide as Hlen; [|done].
  by apply nil_length_inv in Hlen as ->.
Qed.

Lemma getValidWidgets_not_array field dw this_ w :
  get field "widgets" = Ok w → is_undefined w = false → is_array w = false →
  getValidWidgets H5PEditor field dw this_ = Throw (TypeError "widgets must be an array").
Proof.
  unfold getValidWidgets. intros -> Hu Ha. simpl. rewrite Hu.
  by destruct w.
Qed.

Lemma getValidWidgets_nonempty field dw this_ ws :
  getValidWidgets H5PEditor field dw this_ = Ok ws → 0 < length ws.
Proof.
  unfold getValidWidgets.
  destruct (get field "widgets") as [w|e]; simpl; [|done].
  destruct (is_undefined w); [intros [= <-]; simpl; lia|].
  destruct w; try done.
  destruct (collectValid H5PEditor xs []) as [vs|e]; simpl; [|done].
  case_bool_decide as Hlen; intros [= <-].
  - rewrite length_app. simpl. lia.
  - lia.
Qed.


End Resolution.

Section Construction.

Variable H5PEditor : gmap string member.
Variable H5PEditor_t : string → string → value.


(** Each option carries its candidate's name as value and its label as
    text, in the order of the candidates. *)
Lemma buildOptions_spec ws os :
  buildOptions ws = Ok os →
  Forall2 (λ w o, get w "name" = Ok (opt_value o) ∧
                  get w "label" = Ok (opt_text o)) ws os.
Proof.
  revert os. induction ws as [|w ws IH]; simpl; intros os.
  - intros [= <-]. constructor.
  - destruct (get w "name") as [n|] eqn:Hn; simpl; [|done].
    destruct (get w "label") as [l|] eqn:Hl; simpl; [|done].
    destruct (buildOptions ws) as [os'|]; simpl; [|done].
    intros [= <-]. constructor; [done|]. by apply IH.
Qed.

(** What a completed construction leaves behind. *)
Lemma SemanticStructure_Ok_inv field dw s :
  SemanticStructure H5PEditor H5PEditor_t field dw = Ok s →
  is_nullish field = false ∧
  self s = <["label" := if is_undefined (prop field "label")
                        then prop field "name" else prop field "label"]> ∅ ∧
  getValidWidgets H5PEditor field dw (self s) = Ok (widgets s) ∧
  self_widget s = None ∧ trace s = [] ∧ errors s = [] ∧
  wrapper s = (if is_zero (prop field "label") then [] else [LabelEl]) ∧
  match widgetSelect s with
  | Some os => 1 < length (widgets s) ∧ buildOptions (widgets s) = Ok os
  | None => ¬ 1 < length (widgets s)
  end ∧
  (is_Some (widgetSelectLabel s) ↔ is_Some (widgetSelect s)).
Proof.
  intros H. unfold SemanticStructure in H.
  destruct (is_nullish field) eqn:Hf.
  { unfold get in H. by rewrite Hf in H. }
  rewrite !(get_Ok field _ Hf) in H. simpl in H.
  split; [done|].
  destruct (is_undefined (prop field "label")); simpl in H;
    (destruct (getValidWidgets _ _ _ _) as [ws|] eqn:Hws; simpl in H; [|done]);
    (case_bool_decide as Hlen;
      [destruct (buildOptions ws) as [os|] eqn:Hos; simpl in H; [|done]|]);
    simpl in H; injection H as <-; simpl;
    rewrite ?bool_decide_eq_true_2, ?bool_decide_eq_false_2 by done;
    repeat split; by eauto.
Qed.


End Construction.

(** ** Widget resolution at construction *)

(** C1 (as the code has it): when [widgets] is an array none of whose entries
    names a member of the namespace, the resolved list has one entry, the
    value of [self.default], which is [undefined] whatever default widget
    the constructor was given. *)
Theorem unregistered_widgets_resolve_to_self_default
    (H5PEditor : gmap string member) (H5PEditor_t : string → string → value)
    (field dw : value) (ws : list value) (s : state) :
  get field "widgets" = Ok (VArr ws) →
  Forall (λ w, resolves H5PEditor w = false) ws →
  SemanticStructure H5PEditor H5PEditor_t field dw = Ok s →
  widgets s = [VUndefined].
Proof.
  intros Hw Hnone Hs.
  apply SemanticStructure_Ok_inv in Hs as (_ & Hself & Hws & _).
  unfold getValidWidgets in Hws. rewrite Hw in Hws. simpl in Hws.
  destruct (collectValid H5PEditor ws []) as [vs|] eqn:Hvs; simpl in Hws; [|done].
  pose proof (collectValid_Ok_inv _ _ _ _ Hvs) as Hread.
  rewrite (collectValid_filter _ _ _ Hread) in Hvs. simpl in Hvs.
  injection Hvs as <-.
  assert (filter (λ w, resolves H5PEditor w) ws = []) as Hnil.
  { clear -Hnone. induction Hnone as [|w ws Hw _ IH]; [done|].
    rewrite filter_cons_False; [done|]. rewrite Hw. by intros []. }
  rewrite Hnil, Hself, self_default_undefined in Hws. simpl in Hws.
  by injection Hws as <-.
Qed.

Lemma unregistered_widgets_resolve_to_self_default_witness :
  ∃ s, SemanticStructure ex_H5PEditor ex_t ex_unregistered ex_default = Ok s ∧
       widgets s = [VUndefined] ∧ widgets s ≠ [ex_default].
Proof.
  eexists. split; [vm_compute; reflexivity|].
  split.
  - apply (unregistered_widgets_resolve_to_self_default
             ex_H5PEditor ex_t ex_unregistered ex_default
             [candidate "nope" "Nope"]).
    + vm_compute; reflexivity.
    + repeat constructor.
    + vm_compute; reflexivity.
  - vm_compute. discriminate.
Defined.

(** C4: a descriptor whose [widgets] is given and is not an array makes the
    constructor throw the [TypeError] of line 106. *)
Theorem widgets_not_array_throws
    (H5PEditor : gmap string member) (H5PEditor_t : string → string → value)
    (field dw w : value) :
  get field "widgets" = Ok w →
  is_undefined w = false →
  is_array w = false →
  SemanticStructure H5PEditor H5PEditor_t field dw =
    Throw (TypeError "widgets must be an array").
Proof.
  intros Hw Hu Ha.
  destruct (get_Ok_inv _ _ _ Hw) as [Hf _].
  unfold SemanticStructure.
  rewrite !(get_Ok field _ Hf). simpl.
  destruct (is_undefined (prop field "label")); simpl;
    by rewrite (getValidWidgets_not_array _ _ _ _ w).
Qed.

Lemma widgets_not_array_throws_witness :
  SemanticStructure ex_H5PEditor ex_t ex_not_array ex_default =
    Throw (TypeError "widgets must be an array").
Proof.
  apply (widgets_not_array_throws ex_H5PEditor ex_t ex_not_array ex_default
           (VStr "text")); vm_compute; reflexivity.
Defined.

(** C6: whenever the constructor accepts a descriptor, the resolved widget
    list it computed has at least one entry. *)
Theorem resolved_widgets_nonempty
    (H5PEditor : gmap string member) (H5PEditor_t : string → string → value)
    (field dw : value) (s : state) :
  SemanticStructure H5PEditor H5PEditor_t field dw = Ok s →
  widgets s ≠ [] ∧ 0 < length (widgets s).
Proof.
  intros Hs. apply SemanticStructure_Ok_inv in Hs as (_ & _ & Hws & _).
  apply getValidWidgets_nonempty in Hws.
  split; [|done]. intros Hnil. rewrite Hnil in Hws. simpl in Hws. lia.
Qed.

Lemma resolved_widgets_nonempty_witness :
  ∃ s, SemanticStructure ex_H5PEditor ex_t ex_two ex_default = Ok s ∧
       widgets s ≠ [] ∧ 0 < length (widgets s).
Proof.
  eexists. split; [vm_compute; reflexivity|].
  apply (resolved_widgets_nonempty ex_H5PEditor ex_t ex_two ex_default).
  vm_compute; reflexivity.
Defined.




(** ** The label *)

(** C2 (amended): when the descriptor's [label] is the number 0, construction
    puts no label element in the wrapper, and the public [label] attribute is
    the descriptor's [label], that value 0. *)
Theorem label_zero_suppresses_element
    (H5PEditor : gmap string member) (H5PEditor_t : string → string → value)
    (field dw : value) (s : state) :
  SemanticStructure H5PEditor H5PEditor_t field dw = Ok s →
  get field "label" = Ok (VNum 0) →
  (LabelEl ∉ wrapper s) ∧ wrapper s = [] ∧
  self s !! "label" = Some (VNum 0).
Proof.
  intros Hs.
  apply SemanticStructure_Ok_inv in Hs as (Hf & Hself & _ & _ & _ & _ & Hwr & _).
  rewrite Hself, Hwr, (get_Ok _ _ Hf). clear Hself Hwr.
  intros [= ->]. simpl. rewrite lookup_insert_eq.
  split; [|done]. apply not_elem_of_nil.
Qed.

Lemma label_zero_suppresses_element_witness :
  ∃ s, SemanticStructure ex_H5PEditor ex_t ex_no_label ex_default = Ok s ∧
       (LabelEl ∉ wrapper s) ∧ wrapper s = [] ∧
       self s !! "label" = Some (VNum 0).
Proof.
  eexists. split; [vm_compute; reflexivity|].
  apply (label_zero_suppresses_element ex_H5PEditor ex_t ex_no_label ex_default);
    vm_compute; reflexivity.
Defined.

(** C2 as stated fails: for [{name: "title", type: "text", label: 0}] the
    [label] attribute is 0, not the name ["title"]. *)
Lemma label_zero_is_not_the_name :
  get ex_no_label "label" = Ok (VNum 0) ∧
  get ex_no_label "name" = Ok (VStr "title") ∧
  ∃ s, SemanticStructure ex_H5PEditor ex_t ex_no_label ex_default = Ok s ∧
       wrapper s = [] ∧
       self s !! "label" = Some (VNum 0) ∧
       self s !! "label" ≠ Some (VStr "title").
Proof.
  split; [vm_compute; reflexivity|].
  split; [vm_compute; reflexivity|].
  eexists. split; [vm_compute; reflexivity|].
  split; [vm_compute; reflexivity|].
  split; [vm_compute; reflexivity|].
  vm_compute. discriminate.
Qed.

(** ** The selector *)

(** C8: construction builds the select box and its label exactly when more
    than one candidate resolved; the box then has one option per candidate,
    in order, whose value is the candidate's name and whose text is its
    label.  With one candidate there is no selector. *)
Theorem selector_iff_several_widgets
    (H5PEditor : gmap string member) (H5PEditor_t : string → string → value)
    (field dw : value) (s : state) :
  SemanticStructure H5PEditor H5PEditor_t field dw = Ok s →
  (is_Some (widgetSelect s) ↔ 1 < length (widgets s)) ∧
  (is_Some (widgetSelectLabel s) ↔ 1 < length (widgets s)) ∧
  (length (widgets s) = 1 →
   widgetSelect s = None ∧ widgetSelectLabel s = None) ∧
  (∀ os, widgetSelect s = Some os →
         Forall2 (λ w o, get w "name" = Ok (opt_value o) ∧
                         get w "label" = Ok (opt_text o)) (widgets s) os).
Proof.
  intros Hs.
  apply SemanticStructure_Ok_inv in Hs as (_ & _ & _ & _ & _ & _ & _ & Hsel & Hlab).
  assert (is_Some (widgetSelect s) ↔ 1 < length (widgets s)) as Hiff.
  { destruct (widgetSelect s) as [os|].
    - destruct Hsel as [Hlen _]. split; [done|]. by eexists.
    - split; [by intros [? [=]]|done]. }
  split; [done|]. split; [by rewrite Hlab|]. split.
  - intros Hone.
    assert (¬ is_Some (widgetSelect s)) as Hno by (rewrite Hiff; lia).
    split; apply eq_None_not_Some; [done|by rewrite Hlab].
  - intros os Hos. rewrite Hos in Hsel. destruct Hsel as [_ Hbuild].
    by apply buildOptions_spec.
Qed.

Lemma selector_iff_several_widgets_witness :
  ∃ s, SemanticStructure ex_H5PEditor ex_t ex_two ex_default = Ok s ∧
       (is_Some (widgetSelect s) ↔ 1 < length (widgets s)) ∧
       widgetSelect s =
         Some [ {| opt_value := VStr "text"; opt_text := VStr "Text" |};
                {| opt_value := VStr "html"; opt_text := VStr "Html" |} ].
Proof.
  eexists. split; [vm_compute; reflexivity|].
  split.
  - apply (selector_iff_several_widgets ex_H5PEditor ex_t ex_two ex_default).
    vm_compute; reflexivity.
  - vm_compute; reflexivity.
Defined.

(** ** Live instances along a trace *)

Lemma active_app tr tr' : active (tr ++ tr') = foldl track (active tr) tr'.
Proof. unfold active. apply foldl_app. Qed.

Lemma one_at_a_time_app live tr tr' :
  one_at_a_time live (tr ++ tr') =
    one_at_a_time live tr && one_at_a_time (foldl track live tr) tr'.
Proof.
  revert live. induction tr as [|e tr IH]; intros live; simpl; [done|].
  rewrite IH. by rewrite andb_assoc.
Qed.

Lemma filter_none {A} (P : A → Prop) `{∀ x, Decision (P x)} (l : list A) :
  (∀ x, x ∈ l → ¬ P x) → filter P l = [].
Proof.
  induction l as [|x l IH]; intros Hl; [done|].
  rewrite filter_cons_False by (apply Hl; left).
  apply IH. intros y Hy. apply Hl. by right.
Qed.

(** Releasing what [self.widget] holds leaves no instance live, when the live
    instances are among the held one. *)
Lemma release_all s live :
  (∀ i, i ∈ live → i ∈ held s) →
  foldl track live (release s) = [].
Proof.
  unfold held, release. intros Hlive.
  destruct (self_widget s) as [w|]; simpl.
  - apply filter_none. intros i Hi%Hlive%list_elem_of_singleton. by intros [].
  - destruct live as [|i live]; [done|].
    by specialize (Hlive i (list_elem_of_here _ _)) as ?%not_elem_of_nil.
Qed.

Lemma release_one_at_a_time s live :
  (∀ i, i ∈ live → i ∈ held s) →
  one_at_a_time live (release s) = true.
Proof.
  intros Hlive. pose proof (release_all s live Hlive) as Hnil.
  unfold release in *. destruct (self_widget s); simpl in *; [|done].
  by rewrite Hnil.
Qed.

Lemma construction_one_at_a_time s m :
  one_at_a_time [] (construction s m) = true ∧
  foldl track [] (construction s m) =
    match m with MWidget _ => [instances s] | MData _ => [] end.
Proof. by destruct m. Qed.

(** ** The methods, run *)

Ltac run_method :=
  unfold changeWidget, appendTo, selectChange, remove, setError, clearErrors,
    mbind, M_bind, mret, M_ret, gets, emit, modify, throw, lift;
  simpl.

Section Methods.

Variable H5PEditor : gmap string member.

(** What [changeWidget] does, in any state. *)
Lemma changeWidget_spec name s :
  trace (changeWidget H5PEditor name s).2 =
    trace s ++ release s ++ construction s (getWidget H5PEditor name) ∧
  widgets (changeWidget H5PEditor name s).2 = widgets s ∧
  widgetSelect (changeWidget H5PEditor name s).2 = widgetSelect s ∧
  errors (changeWidget H5PEditor name s).2 = errors s ∧
  match getWidget H5PEditor name with
  | MWidget c =>
      (changeWidget H5PEditor name s).1 = Ok tt ∧
      self_widget (changeWidget H5PEditor name s).2 =
        Some {| inst_id := instances s; inst_class := c |}
  | MData _ =>
      (changeWidget H5PEditor name s).1 =
        Throw (TypeError "widget is not a constructor") ∧
      self_widget (changeWidget H5PEditor name s).2 = self_widget s
  end.
Proof.
  run_method. unfold release, construction.
  destruct (self_widget s) as [w|] eqn:Hw; simpl;
    (destruct (getWidget H5PEditor name) as [c|v]; simpl;
      [destruct (description s) as [d|]; simpl|]);
    rewrite <- ?app_assoc, ?app_nil_r; done.
Qed.

(** [changeWidget] keeps the invariant. *)
Lemma changeWidget_consistent name s :
  consistent s → consistent (changeWidget H5PEditor name s).2.
Proof.
  intros [Hone Hlive].
  destruct (changeWidget_spec name s) as (Htr & _ & _ & _ & Hm).
  pose proof (construction_one_at_a_time s (getWidget H5PEditor name))
    as [Hc1 Hc2].
  split.
  - rewrite Htr, !one_at_a_time_app, Hone. fold (active (trace s)).
    rewrite (release_one_at_a_time s _ Hlive).
    rewrite (release_all s _ Hlive). by rewrite Hc1.
  - rewrite Htr, active_app, foldl_app.
    rewrite (release_all s _ Hlive). rewrite Hc2.
    unfold held. destruct (getWidget H5PEditor name); destruct Hm as [_ ->].
    + done.
    + by intros i ?%not_elem_of_nil.
Qed.

Lemma one_at_a_time_length live tr :
  length live ≤ 1 → one_at_a_time live tr = true →
  length (foldl track live tr) ≤ 1.
Proof.
  revert live. induction tr as [|e tr IH]; intros live Hlen; simpl; [done|].
  intros [Hstep Hrest]%andb_prop. apply IH; [|done].
  by apply bool_decide_eq_true in Hstep.
Qed.

Lemma set_trace_id s : set_trace (trace s ++ []) s = s.
Proof. destruct s. unfold set_trace. simpl. by rewrite app_nil_r. Qed.

(** Recording calls that neither make nor release an instance keeps the
    invariant. *)
Lemma consistent_neutral s tr :
  Forall (λ e, ∀ live, track live e = live) tr →
  consistent s → consistent (set_trace (trace s ++ tr) s).
Proof.
  intros Htr [Hone Hlive].
  assert (∀ live, foldl track live tr = live) as Hfold.
  { clear -Htr. induction Htr as [|e tr He _ IH]; intros live; simpl; [done|].
    by rewrite He. }
  assert (∀ live, length live ≤ 1 → one_at_a_time live tr = true) as Hsame.
  { clear -Htr. induction Htr as [|e tr He _ IH]; intros live Hlen; simpl;
      [done|].
    rewrite He, IH by done. by rewrite bool_decide_eq_true_2. }
  pose proof (one_at_a_time_length [] (trace s) (Nat.le_0_l _) Hone) as Hlen.
  split; simpl.
  - rewrite one_at_a_time_app, Hone. simpl. by apply Hsame.
  - by rewrite active_app, Hfold.
Qed.

(** [appendTo], step by step. *)
Lemma appendTo_unfold c s :
  appendTo H5PEditor c s =
    let s1 := set_trace (trace s ++ selector_attach c s) s in
    match get (default VUndefined (widgets s !! 0)) "name" with
    | Ok name =>
        match changeWidget H5PEditor name s1 with
        | (Ok _, s2) => (Ok tt, set_trace (trace s2 ++ [EvWrapperAppendTo c]) s2)
        | (Throw e, s2) => (Throw e, s2)
        end
    | Throw e => (Throw e, s1)
    end.
Proof.
  unfold appendTo, selector_attach, mbind, M_bind, mret, M_ret, gets, emit,
    modify, lift.
  destruct (widgetSelect s) as [os|] eqn:Hos; simpl.
  - by destruct (get _ "name").
  - rewrite set_trace_id. by destruct (get _ "name").
Qed.

End Methods.

Section Reachable.

Variable H5PEditor : gmap string member.

Lemma appendTo_consistent c s :
  consistent s → consistent (appendTo H5PEditor c s).2.
Proof.
  intros Hs. rewrite appendTo_unfold. simpl.
  assert (consistent (set_trace (trace s ++ selector_attach c s) s)) as Hs1.
  { apply consistent_neutral; [|done].
    unfold selector_attach. destruct (widgetSelect s); repeat constructor. }
  destruct (get _ "name") as [name|e]; [|done].
  pose proof (changeWidget_consistent H5PEditor name _ Hs1) as Hs2.
  destruct (changeWidget H5PEditor name _) as [[[]|e] s2]; simpl in *; [|done].
  apply consistent_neutral; [repeat constructor|done].
Qed.

(** The change handler, step by step. *)
Lemma selectChange_unfold val s :
  selectChange H5PEditor val s =
    match widgetSelect s with
    | Some _ => changeWidget H5PEditor val s
    | None => (Ok tt, s)
    end.
Proof.
  unfold selectChange, mbind, M_bind, mret, M_ret, gets. simpl.
  by destruct (widgetSelect s).
Qed.

Lemma selectChange_consistent val s :
  consistent s → consistent (selectChange H5PEditor val s).2.
Proof.
  intros Hs. rewrite selectChange_unfold.
  destruct (widgetSelect s) as [os|]; [|done].
  by apply changeWidget_consistent.
Qed.

Lemma remove_consistent s :
  consistent s → consistent (remove s).2.
Proof.
  intros [Hone Hlive]. run_method.
  destruct (self_widget s) as [w|] eqn:Hw; simpl; [|done].
  assert (foldl track (active (trace s)) (release s) = []) as Hnil
    by by apply release_all.
  assert (one_at_a_time (active (trace s)) (release s) = true) as Hrel
    by by apply release_one_at_a_time.
  unfold release in Hnil, Hrel. rewrite Hw in Hnil, Hrel.
  split; simpl.
  - by rewrite one_at_a_time_app, Hone.
  - rewrite active_app, Hnil. by intros i ?%not_elem_of_nil.
Qed.

Lemma run_op_consistent o s :
  consistent s → consistent (run_op H5PEditor o s).
Proof.
  destruct o; simpl.
  - apply appendTo_consistent.
  - apply selectChange_consistent.
  - apply remove_consistent.
  - done.
  - done.
Qed.

(** The resolved candidates and the selector never change after
    construction. *)
Lemma run_op_fixed o s :
  widgets (run_op H5PEditor o s) = widgets s ∧
  widgetSelect (run_op H5PEditor o s) = widgetSelect s.
Proof.
  destruct o; simpl.
  - rewrite appendTo_unfold. simpl.
    destruct (get _ "name") as [name|e]; [|done].
    destruct (changeWidget_spec H5PEditor name
                (set_trace (trace s ++ selector_attach container s) s))
      as (_ & Hw & Hsel & _).
    by destruct (changeWidget H5PEditor name _) as [[[]|e] s2].
  - rewrite selectChange_unfold.
    destruct (widgetSelect s) as [os|] eqn:Hos; [|done].
    destruct (changeWidget_spec H5PEditor val s) as (_ & Hw & Hsel & _).
    by rewrite Hw, Hsel.
  - run_method. by destruct (self_widget s).
  - done.
  - done.
Qed.

Lemma reachable_consistent s0 s :
  consistent s0 → reachable H5PEditor s0 s →
  consistent s ∧ widgets s = widgets s0 ∧ widgetSelect s = widgetSelect s0.
Proof.
  intros H0. induction 1 as [|s o _ (IH & IHw & IHs)]; [done|].
  destruct (run_op_fixed o s) as [-> ->].
  split; [|done]. by apply run_op_consistent.
Qed.

Lemma constructed_consistent H5PEditor_t field dw s0 :
  SemanticStructure H5PEditor H5PEditor_t field dw = Ok s0 → consistent s0.
Proof.
  intros Hs0.
  apply SemanticStructure_Ok_inv in Hs0 as (_ & _ & _ & _ & Htr & _).
  unfold consistent. rewrite Htr. split; [done|].
  by intros i ?%not_elem_of_nil.
Qed.

End Reachable.

(** ** Changing the widget *)

(** C3 (amended): in every state a constructed wrapper reaches, a widget
    change first calls [remove()] on the instance that is live, then
    constructs the new one; when the name is a widget class of the namespace
    it returns normally and has emitted [changeWidget] exactly once, and when
    the name is no constructor there, [new] throws after the release and no
    event is emitted; at no point of the trace are two instances live.  The
    selector's change handler runs the operation as it is, [appendTo] runs it
    between its two attachments. *)
Theorem widget_change_is_sequential
    (H5PEditor : gmap string member) (H5PEditor_t : string → string → value)
    (field dw : value) (s0 s : state) :
  SemanticStructure H5PEditor H5PEditor_t field dw = Ok s0 →
  reachable H5PEditor s0 s →
  (∀ i, i ∈ active (trace s) → release s = [EvWidgetRemove i]) ∧
  (∀ name c, getWidget H5PEditor name = MWidget c →
     (changeWidget H5PEditor name s).1 = Ok tt ∧
     trace (changeWidget H5PEditor name s).2 =
       trace s ++ release s ++
       [EvWidgetNew c (instances s); EvTrigger "changeWidget";
        EvWidgetAppendTo (instances s)] ∧
     count_triggers "changeWidget"
       (release s ++
        [EvWidgetNew c (instances s); EvTrigger "changeWidget";
         EvWidgetAppendTo (instances s)]) = 1 ∧
     self_widget (changeWidget H5PEditor name s).2 =
       Some {| inst_id := instances s; inst_class := c |} ∧
     active (trace (changeWidget H5PEditor name s).2) = [instances s]) ∧
  (∀ name v, getWidget H5PEditor name = MData v →
     (changeWidget H5PEditor name s).1 =
       Throw (TypeError "widget is not a constructor") ∧
     trace (changeWidget H5PEditor name s).2 = trace s ++ release s ∧
     count_triggers "changeWidget" (release s) = 0 ∧
     self_widget (changeWidget H5PEditor name s).2 = self_widget s) ∧
  (∀ name,
     one_at_a_time [] (trace (changeWidget H5PEditor name s).2) = true) ∧
  (∀ val os, widgetSelect s = Some os →
     selectChange H5PEditor val s = changeWidget H5PEditor val s) ∧
  (∀ k name, get (default VUndefined (widgets s !! 0)) "name" = Ok name →
     trace (appendTo H5PEditor k s).2 =
       trace s ++ selector_attach k s ++
       (release s ++ construction s (getWidget H5PEditor name)) ++
       match (appendTo H5PEditor k s).1 with
       | Ok _ => [EvWrapperAppendTo k]
       | Throw _ => []
       end ∧
     one_at_a_time [] (trace (appendTo H5PEditor k s).2) = true).
Proof.
  intros Hs0 Hreach.
  destruct (reachable_consistent H5PEditor s0 s
              (constructed_consistent _ _ _ _ _ Hs0) Hreach) as (Hs & _ & _).
  pose proof Hs as [_ Hlive].
  split; [|split; [|split; [|split; [|split]]]].
  - intros i Hi%Hlive. unfold held, release in *.
    destruct (self_widget s) as [w|].
    + by apply list_elem_of_singleton in Hi as ->.
    + by apply not_elem_of_nil in Hi.
  - intros name c Hname.
    destruct (changeWidget_spec H5PEditor name s) as (Htr & _ & _ & _ & Hm).
    rewrite Hname in Htr, Hm. simpl in Htr. destruct Hm as [Hok Hheld].
    split; [done|]. split; [done|]. split.
    { unfold release. by destruct (self_widget s). }
    split; [done|].
    rewrite Htr, active_app, foldl_app. by rewrite (release_all s _ Hlive).
  - intros name v Hname.
    destruct (changeWidget_spec H5PEditor name s) as (Htr & _ & _ & _ & Hm).
    rewrite Hname in Htr, Hm. simpl in Htr. rewrite app_nil_r in Htr.
    destruct Hm as [Hthrow Hheld].
    split; [done|]. split; [done|]. split; [|done].
    unfold release. by destruct (self_widget s).
  - intros name. by apply changeWidget_consistent.
  - intros val os Hos. by rewrite selectChange_unfold, Hos.
  - intros k name Hname. split.
    + rewrite appendTo_unfold, Hname. simpl.
      destruct (changeWidget_spec H5PEditor name
                  (set_trace (trace s ++ selector_attach k s) s))
        as (Htr & _ & _ & _ & Hm).
      simpl in Htr.
      change (release (set_trace _ s)) with (release s) in Htr.
      change (construction (set_trace _ s)) with (construction s) in Htr.
      destruct (changeWidget H5PEditor name _) as [[[]|e] s2]; simpl in *;
        rewrite ?Htr, <- ?app_assoc, ?app_nil_r; done.
    + by apply appendTo_consistent.
Qed.

Lemma widget_change_is_sequential_witness :
  ∃ s0, SemanticStructure ex_H5PEditor ex_t ex_two ex_default = Ok s0 ∧
    let s := run_op ex_H5PEditor (OpAppendTo 3) s0 in
    active (trace s) = [0] ∧
    (changeWidget ex_H5PEditor (VStr "html") s).1 = Ok tt ∧
    trace (changeWidget ex_H5PEditor (VStr "html") s).2 =
      [EvSelectorAppendTo 3; EvWidgetNew text_widget 0;
       EvTrigger "changeWidget"; EvWidgetAppendTo 0; EvWrapperAppendTo 3;
       EvWidgetRemove 0; EvWidgetNew html_widget 1;
       EvTrigger "changeWidget"; EvWidgetAppendTo 1] ∧
    count_triggers "changeWidget"
      [EvWidgetRemove 0; EvWidgetNew html_widget 1;
       EvTrigger "changeWidget"; EvWidgetAppendTo 1] = 1 ∧
    active (trace (changeWidget ex_H5PEditor (VStr "html") s).2) = [1] ∧
    one_at_a_time [] (trace (changeWidget ex_H5PEditor (VStr "html") s).2) = true.
Proof.
  destruct (SemanticStructure ex_H5PEditor ex_t ex_two ex_default)
    as [s0|e] eqn:Hs0; [|vm_compute in Hs0; discriminate].
  exists s0. split; [done|]. intros s.
  assert (trace s =
            [EvSelectorAppendTo 3; EvWidgetNew text_widget 0;
             EvTrigger "changeWidget"; EvWidgetAppendTo 0;
             EvWrapperAppendTo 3] ∧
          self_widget s = Some {| inst_id := 0; inst_class := text_widget |} ∧
          instances s = 1) as (Htrace & Hheld & Hcount).
  { subst s.
    change (match Ok s0 with
            | Ok s0' =>
                trace (run_op ex_H5PEditor (OpAppendTo 3) s0') =
                  [EvSelectorAppendTo 3; EvWidgetNew text_widget 0;
                   EvTrigger "changeWidget"; EvWidgetAppendTo 0;
                   EvWrapperAppendTo 3] ∧
                self_widget (run_op ex_H5PEditor (OpAppendTo 3) s0') =
                  Some {| inst_id := 0; inst_class := text_widget |} ∧
                instances (run_op ex_H5PEditor (OpAppendTo 3) s0') = 1
            | Throw _ => False
            end).
    rewrite <- Hs0. vm_compute. done. }
  destruct (widget_change_is_sequential ex_H5PEditor ex_t ex_two ex_default
              s0 s Hs0) as (Hrel & Hchange & _ & Hone & _).
  { apply reach_step, reach_init. }
  destruct (Hchange (VStr "html") html_widget)
    as (Hok & Htr & Hevents & _ & Hlive).
  { vm_compute; reflexivity. }
  unfold release in Htr, Hevents. rewrite Hheld, Hcount in Htr, Hevents.
  rewrite Hcount in Hlive. rewrite Htrace in Htr. simpl in Htr, Hevents.
  split; [by rewrite Htrace|]. split; [done|]. split; [done|].
  split; [done|]. split; [done|]. apply Hone.
Defined.

(** C3 as stated fails: on the wrapper of [{name: "title", type: "text"}]
    with the default widget [{name: "nope", label: "Nope"}], [nope] not being
    loaded, the widget change that [appendTo] runs throws and emits no
    [changeWidget] event. *)
Lemma unloaded_default_emits_no_event :
  getWidget ex_H5PEditor (VStr "nope") = MData VUndefined ∧
  ∃ s0, SemanticStructure ex_H5PEditor ex_t ex_plain (candidate "nope" "Nope")
          = Ok s0 ∧
    widgets s0 = [candidate "nope" "Nope"] ∧
    (appendTo ex_H5PEditor 3 s0).1 =
      Throw (TypeError "widget is not a constructor") ∧
    trace (appendTo ex_H5PEditor 3 s0).2 = [] ∧
    count_triggers "changeWidget" (trace (appendTo ex_H5PEditor 3 s0).2) = 0.
Proof.
  split; [vm_compute; reflexivity|].
  eexists. split; [vm_compute; reflexivity|].
  vm_compute. done.
Qed.

(** The second example of the specification, run: two candidates, the first
    mounted by [appendTo], then [html] picked in the selector. *)
Example select_html_after_mount :
  ∃ s0, SemanticStructure ex_H5PEditor ex_t ex_two ex_default = Ok s0 ∧
    let s := run_op ex_H5PEditor (OpSelect (VStr "html"))
               (run_op ex_H5PEditor (OpAppendTo 3) s0) in
    trace s =
      [EvSelectorAppendTo 3; EvWidgetNew text_widget 0;
       EvTrigger "changeWidget"; EvWidgetAppendTo 0; EvWrapperAppendTo 3;
       EvWidgetRemove 0; EvWidgetNew html_widget 1;
       EvTrigger "changeWidget"; EvWidgetAppendTo 1] ∧
    active (trace s) = [1] ∧
    helpText s = VStr "Rich text" ∧
    wrapper s = [LabelEl; ErrorsEl; HelpTextEl].
Proof.
  eexists. split; [vm_compute; reflexivity|].
  vm_compute. done.
Qed.

(** ** Mounting *)



(** ** Errors *)

(** C9: [setError] adds one entry at the end of the errors container and
    keeps the entries before it; [clearErrors] after any number of
    [setError] calls leaves the container empty; neither touches the held
    widget, the calls recorded on it, or the children of the wrapper. *)
Theorem errors_accumulate_until_cleared (s : state) (m : value) (ms : list value) :
  ((setError m s).1 = Ok tt ∧
   errors (setError m s).2 = errors s ++ [createError m]) ∧
  errors (foldl (λ st m', (setError m' st).2) s ms) =
    errors s ++ (createError <$> ms) ∧
  ((clearErrors (foldl (λ st m', (setError m' st).2) s ms)).1 = Ok tt ∧
   errors (clearErrors (foldl (λ st m', (setError m' st).2) s ms)).2 = []) ∧
  (self_widget (setError m s).2 = self_widget s ∧
   trace (setError m s).2 = trace s ∧
   wrapper (setError m s).2 = wrapper s) ∧
  (self_widget (clearErrors s).2 = self_widget s ∧
   trace (clearErrors s).2 = trace s ∧
   wrapper (clearErrors s).2 = wrapper s).
Proof.
  split; [done|]. split; [|done].
  revert s. induction ms as [|m' ms IH]; intros s; simpl.
  - by rewrite app_nil_r.
  - rewrite IH. simpl. by rewrite <- app_assoc.
Qed.

(** ** Removal *)

(** C10: on a wrapper that was constructed and on which, since, errors were
    at most reported and cleared, [remove()] throws a [TypeError] and changes
    nothing: [self.widget] is still undefined. *)
Theorem remove_before_mount_throws
    (H5PEditor : gmap string member) (H5PEditor_t : string → string → value)
    (field dw : value) (s0 : state) (ops : list op) :
  SemanticStructure H5PEditor H5PEditor_t field dw = Ok s0 →
  Forall (λ o, reports_only o = true) ops →
  self_widget (foldl (λ st o, run_op H5PEditor o st) s0 ops) = None ∧
  remove (foldl (λ st o, run_op H5PEditor o st) s0 ops) =
    (Throw (TypeError "Cannot read properties of undefined"),
     foldl (λ st o, run_op H5PEditor o st) s0 ops).
Proof.
  intros Hs0 Hops.
  apply SemanticStructure_Ok_inv in Hs0 as (_ & _ & _ & Hnone & _).
  assert (self_widget (foldl (λ st o, run_op H5PEditor o st) s0 ops) = None)
    as Hw.
  { revert s0 Hnone. induction Hops as [|o ops Ho _ IH]; intros s0 Hnone;
      simpl; [done|].
    apply IH. by destruct o. }
  split; [done|]. run_method. by rewrite Hw.
Qed.

Lemma remove_before_mount_throws_witness :
  ∃ s0, SemanticStructure ex_H5PEditor ex_t ex_two ex_default = Ok s0 ∧
    remove (run_op ex_H5PEditor OpClearErrors
              (run_op ex_H5PEditor (OpSetError (VStr "required")) s0)) =
      (Throw (TypeError "Cannot read properties of undefined"),
       run_op ex_H5PEditor OpClearErrors
         (run_op ex_H5PEditor (OpSetError (VStr "required")) s0)).
Proof.
  destruct (SemanticStructure ex_H5PEditor ex_t ex_two ex_default)
    as [s0|e] eqn:Hs0; [|vm_compute in Hs0; discriminate].
  exists s0. split; [done|].
  apply (remove_before_mount_throws ex_H5PEditor ex_t ex_two ex_default s0
           [OpSetError (VStr "required"); OpClearErrors] Hs0).
  repeat constructor.
Defined.

(** * Further properties *)

Section Presentation.

Variable H5PEditor : gmap string member.


(** What [changeWidget] does to the elements of the wrapper. *)
Lemma changeWidget_presentation name s :
  field (changeWidget H5PEditor name s).2 = field s ∧
  description (changeWidget H5PEditor name s).2 = description s ∧
  match getWidget H5PEditor name with
  | MWidget c =>
      wrapper (changeWidget H5PEditor name s).2 =
        attach HelpTextEl
          (match description s with
           | Some _ => attach DescriptionEl (attach ErrorsEl (wrapper s))
           | None => attach ErrorsEl (wrapper s)
           end) ∧
      helpText (changeWidget H5PEditor name s).2 = shown_helpText c
  | MData _ =>
      wrapper (changeWidget H5PEditor name s).2 = wrapper s ∧
      helpText (changeWidget H5PEditor name s).2 = helpText s
  end.
Proof.
  run_method. unfold shown_helpText.
  destruct (self_widget s) as [w|]; simpl;
    (destruct (getWidget H5PEditor name) as [c|v]; simpl;
      [destruct (description s) as [d|] eqn:Hd; simpl|]); done.
Qed.

(** [appendTo] ends in the state its widget change ends in, but for the
    calls recorded. *)
Lemma appendTo_via_changeWidget c s :
  ∃ s1 tr,
    s1 = set_trace (trace s ++ selector_attach c s) s ∧
    ((appendTo H5PEditor c s).2 = s1 ∨
     ∃ name, get (default VUndefined (widgets s !! 0)) "name" = Ok name ∧
             (appendTo H5PEditor c s).2 =
               set_trace tr (changeWidget H5PEditor name s1).2).
Proof.
  rewrite appendTo_unfold. simpl.
  destruct (get _ "name") as [name|e] eqn:Hname.
  - destruct (changeWidget H5PEditor name _) as [[[]|e] s2] eqn:Hcw.
    + eexists _, (trace s2 ++ [EvWrapperAppendTo c]). split; [done|].
      right. exists name. by rewrite Hcw.
    + eexists _, (trace s2). split; [done|].
      right. exists name. rewrite Hcw. simpl. by destruct s2.
  - eexists _, []. split; [done|]. by left.
Qed.

Lemma SemanticStructure_presented H5PEditor_t f dw s :
  SemanticStructure H5PEditor H5PEditor_t f dw = Ok s → presented f s.
Proof.
  intros H. unfold SemanticStructure in H.
  destruct (is_nullish f) eqn:Hf.
  { unfold get in H. by rewrite Hf in H. }
  rewrite !(get_Ok f _ Hf) in H. simpl in H.
  destruct (is_undefined (prop f "label")); simpl in H;
    (destruct (getValidWidgets _ _ _ _) as [ws|]; simpl in H; [|done]);
    (case_bool_decide;
      [destruct (buildOptions ws) as [os|]; simpl in H; [|done]|]);
    simpl in H; by injection H as <-.
Qed.

Lemma attach_layout f (d : option value) :
  d = (if is_undefined (prop f "description") then None
       else Some (prop f "description")) →
  ∀ l, l = initial_layout f ∨ l = mounted_layout f →
  attach HelpTextEl
    (match d with
     | Some _ => attach DescriptionEl (attach ErrorsEl l)
     | None => attach ErrorsEl l
     end) = mounted_layout f.
Proof.
  unfold mounted_layout, initial_layout. intros -> l.
  destruct (is_zero (prop f "label")), (is_undefined (prop f "description"));
    by intros [-> | ->].
Qed.

Lemma changeWidget_presented f name s :
  presented f s → presented f (changeWidget H5PEditor name s).2.
Proof.
  intros (Hf & Hd & Hw & Hh).
  destruct (changeWidget_presentation name s) as (Hf' & Hd' & Hm).
  destruct (changeWidget_spec H5PEditor name s) as (_ & _ & _ & _ & Hm').
  unfold presented. rewrite Hf', Hd'.
  split; [done|]. split; [done|].
  destruct (getWidget H5PEditor name) as [c|v];
    destruct Hm as [-> ->], Hm' as [_ ->]; [|done].
  split; [|done]. apply attach_layout; [done|].
  rewrite Hw. destruct (self_widget s); by eauto.
Qed.

Lemma set_trace_presented f tr s :
  presented f s → presented f (set_trace tr s).
Proof. done. Qed.

Lemma run_op_presented f o s :
  presented f s → presented f (run_op H5PEditor o s).
Proof.
  intros Hs. destruct o; simpl.
  - destruct (appendTo_via_changeWidget container s)
      as (s1 & tr & -> & [-> | (name & _ & ->)]); [done|].
    by apply set_trace_presented, changeWidget_presented.
  - rewrite selectChange_unfold.
    destruct (widgetSelect s) as [os|]; [|done].
    by apply changeWidget_presented.
  - run_method. by destruct (self_widget s).
  - done.
  - done.
Qed.

Lemma reachable_presented H5PEditor_t f dw s0 s :
  SemanticStructure H5PEditor H5PEditor_t f dw = Ok s0 →
  reachable H5PEditor s0 s → presented f s.
Proof.
  intros Hs0. induction 1 as [|s o _ IH].
  - by eapply SemanticStructure_presented.
  - by apply run_op_presented.
Qed.

End Presentation.

(** ** The presentation along the life of a wrapper *)

(** The elements this file places in the wrapper are, in every state the
    wrapper reaches, either the label alone (nothing when the label is
    suppressed), as construction leaves them, or the label, the errors
    container, the description when the descriptor has one, and the help
    text, in this order and each once.  They are the latter after every
    widget change and every [appendTo] that returned normally, however many
    went before, and a widget change that throws leaves them as they
    were. *)
Theorem wrapper_layout_is_stable
    (H5PEditor : gmap string member) (H5PEditor_t : string → string → value)
    (f dw : value) (s0 s : state) :
  SemanticStructure H5PEditor H5PEditor_t f dw = Ok s0 →
  reachable H5PEditor s0 s →
  wrapper s0 = initial_layout f ∧
  (wrapper s = initial_layout f ∨ wrapper s = mounted_layout f) ∧
  NoDup (wrapper s) ∧
  (∀ name, (changeWidget H5PEditor name s).1 = Ok tt →
           wrapper (changeWidget H5PEditor name s).2 = mounted_layout f) ∧
  (∀ name e, (changeWidget H5PEditor name s).1 = Throw e →
             wrapper (changeWidget H5PEditor name s).2 = wrapper s) ∧
  (∀ k, (appendTo H5PEditor k s).1 = Ok tt →
        wrapper (appendTo H5PEditor k s).2 = mounted_layout f).
Proof.
  intros Hs0 Hreach.
  pose proof (SemanticStructure_presented _ _ _ _ _ Hs0) as (_ & _ & Hw0 & _).
  pose proof (SemanticStructure_Ok_inv _ _ _ _ _ Hs0) as (_ & _ & _ & Hnone & _).
  rewrite Hnone in Hw0.
  destruct (reachable_presented _ _ _ _ _ _ Hs0 Hreach) as (_ & Hd & Hw & _).
  assert (wrapper s = initial_layout f ∨ wrapper s = mounted_layout f) as Hor.
  { rewrite Hw. destruct (self_widget s); by eauto. }
  assert (∀ name, (changeWidget H5PEditor name s).1 = Ok tt →
            wrapper (changeWidget H5PEditor name s).2 = mounted_layout f)
    as Hchange.
  { intros name Hok.
    destruct (changeWidget_presentation H5PEditor name s) as (_ & _ & Hm).
    destruct (changeWidget_spec H5PEditor name s) as (_ & _ & _ & _ & Hm').
    destruct (getWidget H5PEditor name) as [c|v].
    - destruct Hm as [-> _]. by apply attach_layout.
    - destruct Hm' as [Hthrow _]. by rewrite Hthrow in Hok. }
  split; [done|]. split; [done|]. split; [|split; [done|split]].
  - unfold mounted_layout, initial_layout in Hor.
    destruct (is_zero (prop f "label")),
      (is_undefined (prop f "description")), Hor as [-> | ->];
      apply (bool_decide_unpack _); by compute.
  - intros name e Hthrow.
    destruct (changeWidget_presentation H5PEditor name s) as (_ & _ & Hm).
    destruct (changeWidget_spec H5PEditor name s) as (_ & _ & _ & _ & Hm').
    destruct (getWidget H5PEditor name) as [c|v].
    + destruct Hm' as [Hok _]. by rewrite Hok in Hthrow.
    + by destruct Hm as [-> _].
  - intros k Hok. rewrite appendTo_unfold in Hok |- *. simpl in *.
    destruct (get _ "name") as [name|e]; [|done].
    pose proof (changeWidget_presentation H5PEditor name
                  (set_trace (trace s ++ selector_attach k s) s))
      as (_ & _ & Hm).
    pose proof (changeWidget_spec H5PEditor name
                  (set_trace (trace s ++ selector_attach k s) s))
      as (_ & _ & _ & _ & Hm').
    destruct (getWidget H5PEditor name) as [c|v].
    + destruct Hm as [Hwr _]. simpl in Hwr.
      destruct (changeWidget H5PEditor name _) as [[[]|e] s2]; [|done].
      simpl in *. rewrite Hwr. by apply attach_layout.
    + destruct Hm' as [Hthrow _].
      destruct (changeWidget H5PEditor name _) as [[[]|e] s2]; by simpl in *.
Qed.

Lemma wrapper_layout_is_stable_witness :
  ∃ s0, SemanticStructure ex_H5PEditor ex_t ex_two ex_default = Ok s0 ∧
    let s := run_op ex_H5PEditor (OpSelect (VStr "html"))
               (run_op ex_H5PEditor (OpAppendTo 3) s0) in
    wrapper s0 = [LabelEl] ∧
    (wrapper s = initial_layout ex_two ∨ wrapper s = mounted_layout ex_two) ∧
    NoDup (wrapper s) ∧
    wrapper (changeWidget ex_H5PEditor (VStr "text") s).2 =
      [LabelEl; ErrorsEl; HelpTextEl].
Proof.
  destruct (SemanticStructure ex_H5PEditor ex_t ex_two ex_default)
    as [s0|e] eqn:Hs0; [|vm_compute in Hs0; discriminate].
  exists s0. split; [done|]. intros s.
  destruct (wrapper_layout_is_stable ex_H5PEditor ex_t ex_two ex_default
              s0 s Hs0) as (Hw0 & Hor & Hnodup & Hchange & _).
  { do 2 apply reach_step. apply reach_init. }
  split; [by rewrite Hw0|]. split; [done|]. split; [done|].
  rewrite Hchange; [by vm_compute|].
  destruct (changeWidget_spec ex_H5PEditor (VStr "text") s)
    as (_ & _ & _ & _ & Hm).
  replace (getWidget ex_H5PEditor (VStr "text")) with (MWidget text_widget)
    in Hm by (vm_compute; reflexivity).
  by destruct Hm as [-> _].
Defined.



(** [getName()] returns the descriptor's [name] in every state the wrapper
    reaches, and changes nothing. *)
Theorem getName_is_the_descriptor_name
    (H5PEditor : gmap string member) (H5PEditor_t : string → string → value)
    (f dw : value) (s0 s : state) :
  SemanticStructure H5PEditor H5PEditor_t f dw = Ok s0 →
  reachable H5PEditor s0 s →
  getName s = (Ok (prop f "name"), s).
Proof.
  intros Hs0 Hreach.
  destruct (reachable_presented _ _ _ _ _ _ Hs0 Hreach) as (Hf & _).
  apply SemanticStructure_Ok_inv in Hs0 as (Hnn & _).
  unfold getName, mbind, M_bind, gets, lift. simpl.
  by rewrite Hf, (get_Ok _ _ Hnn).
Qed.

Lemma getName_is_the_descriptor_name_witness :
  ∃ s0, SemanticStructure ex_H5PEditor ex_t ex_two ex_default = Ok s0 ∧
    getName (run_op ex_H5PEditor (OpAppendTo 3) s0) =
      (Ok (VStr "title"), run_op ex_H5PEditor (OpAppendTo 3) s0).
Proof.
  destruct (SemanticStructure ex_H5PEditor ex_t ex_two ex_default)
    as [s0|e] eqn:Hs0; [|vm_compute in Hs0; discriminate].
  exists s0. split; [done|].
  apply (getName_is_the_descriptor_name ex_H5PEditor ex_t ex_two ex_default
           s0 _ Hs0).
  apply reach_step, reach_init.
Defined.

(** ** Which descriptors the constructor accepts *)


(** ** Errors across the other operations *)

Lemma run_op_errors H5PEditor o s :
  errors (run_op H5PEditor o s) =
    match o with
    | OpSetError m => errors s ++ [createError m]
    | OpClearErrors => []
    | _ => errors s
    end.
Proof.
  destruct o; simpl; try done.
  - destruct (appendTo_via_changeWidget H5PEditor container s)
      as (s1 & tr & -> & [-> | (name & _ & ->)]); [done|].
    simpl. by destruct (changeWidget_spec H5PEditor name
                          (set_trace (trace s ++ selector_attach container s) s))
      as (_ & _ & _ & -> & _).
  - rewrite selectChange_unfold.
    destruct (widgetSelect s) as [os|]; [|done].
    by destruct (changeWidget_spec H5PEditor val s) as (_ & _ & _ & -> & _).
  - run_method. by destruct (self_widget s).
Qed.

Lemma run_ops_errors H5PEditor ops s :
  errors (run_ops H5PEditor ops s) =
    foldl (λ es o,
             match o with
             | OpSetError m => es ++ [createError m]
             | OpClearErrors => []
             | _ => es
             end) (errors s) ops.
Proof.
  unfold run_ops. revert s.
  induction ops as [|o ops IH]; intros s; simpl; [done|].
  by rewrite IH, run_op_errors.
Qed.

(** Whatever else is done with the wrapper (mounting, widget changes,
    removal), the errors container holds exactly the entries reported since
    the last [clearErrors], in the order they were reported. *)
Theorem errors_are_the_pending_reports
    (H5PEditor : gmap string member) (H5PEditor_t : string → string → value)
    (f dw : value) (s0 : state) (ops : list op) :
  SemanticStructure H5PEditor H5PEditor_t f dw = Ok s0 →
  errors (run_ops H5PEditor ops s0) = pending_errors ops.
Proof.
  intros Hs0.
  apply SemanticStructure_Ok_inv in Hs0 as (_ & _ & _ & _ & _ & Herr & _).
  by rewrite run_ops_errors, Herr.
Qed.

Lemma errors_are_the_pending_reports_witness :
  ∃ s0, SemanticStructure ex_H5PEditor ex_t ex_two ex_default = Ok s0 ∧
    errors (run_ops ex_H5PEditor
              [OpSetError (VStr "a"); OpClearErrors; OpSetError (VStr "b");
               OpAppendTo 3; OpSetError (VStr "c"); OpSelect (VStr "html")] s0) =
      [createError (VStr "b"); createError (VStr "c")].
Proof.
  destruct (SemanticStructure ex_H5PEditor ex_t ex_two ex_default)
    as [s0|e] eqn:Hs0; [|vm_compute in Hs0; discriminate].
  exists s0. split; [done|].
  by rewrite (errors_are_the_pending_reports ex_H5PEditor ex_t ex_two
                ex_default s0 _ Hs0).
Defined.

(** ** Removal after mounting *)

(** Once a widget is held, [remove()] calls [remove()] on it and returns;
    no instance is live afterwards, but [self.widget] still refers to the
    removed instance, so that a second [remove()] calls [remove()] on that
    same instance again. *)
Theorem remove_releases_but_keeps_reference
    (H5PEditor : gmap string member) (H5PEditor_t : string → string → value)
    (f dw : value) (s0 s : state) (w : instance) :
  SemanticStructure H5PEditor H5PEditor_t f dw = Ok s0 →
  reachable H5PEditor s0 s →
  self_widget s = Some w →
  remove s = (Ok tt, set_trace (trace s ++ [EvWidgetRemove (inst_id w)]) s) ∧
  active (trace (remove s).2) = [] ∧
  self_widget (remove s).2 = Some w ∧
  remove (remove s).2 =
    (Ok tt,
     set_trace (trace s ++ [EvWidgetRemove (inst_id w); EvWidgetRemove (inst_id w)])
       s).
Proof.
  intros Hs0 Hreach Hw.
  destruct (reachable_consistent H5PEditor s0 s
              (constructed_consistent _ _ _ _ _ Hs0) Hreach)
    as ([_ Hlive] & _ & _).
  pose proof (release_all s _ Hlive) as Hnil.
  unfold release in Hnil. rewrite Hw in Hnil.
  run_method. rewrite Hw. simpl. rewrite Hw. simpl.
  split; [done|]. split; [by rewrite active_app|]. split; [done|].
  by rewrite <- app_assoc.
Qed.

Lemma remove_releases_but_keeps_reference_witness :
  ∃ s0, SemanticStructure ex_H5PEditor ex_t ex_two ex_default = Ok s0 ∧
    active (trace (remove (run_op ex_H5PEditor (OpAppendTo 3) s0)).2) = [] ∧
    self_widget (remove (run_op ex_H5PEditor (OpAppendTo 3) s0)).2 =
      Some {| inst_id := 0; inst_class := text_widget |}.
Proof.
  destruct (SemanticStructure ex_H5PEditor ex_t ex_two ex_default)
    as [s0|e] eqn:Hs0; [|vm_compute in Hs0; discriminate].
  exists s0. split; [done|].
  destruct (remove_releases_but_keeps_reference ex_H5PEditor ex_t ex_two
              ex_default s0 (run_op ex_H5PEditor (OpAppendTo 3) s0)
              {| inst_id := 0; inst_class := text_widget |} Hs0)
    as (_ & Hlive & Hheld & _).
  - apply reach_step, reach_init.
  - change (self_widget (run_op ex_H5PEditor (OpAppendTo 3) s0)) with
      (match Ok s0 with
       | Ok s => self_widget (run_op ex_H5PEditor (OpAppendTo 3) s)
       | Throw _ => None
       end).
    rewrite <- Hs0. vm_compute; reflexivity.
  - by split.
Defined.

(** ** A widget change that fails *)

(** When the name given to [changeWidget] has no member in the namespace, or
    one that is no function, [new] throws after the held widget was removed:
    no instance is live any more, while [self.widget], the help text and
    this file's elements in the wrapper are still those of the removed
    widget, and nothing but the removal was recorded. *)
Theorem failed_change_leaves_no_live_widget
    (H5PEditor : gmap string member) (H5PEditor_t : string → string → value)
    (f dw : value) (s0 s : state) (name v : value) :
  SemanticStructure H5PEditor H5PEditor_t f dw = Ok s0 →
  reachable H5PEditor s0 s →
  getWidget H5PEditor name = MData v →
  (changeWidget H5PEditor name s).1 =
    Throw (TypeError "widget is not a constructor") ∧
  trace (changeWidget H5PEditor name s).2 = trace s ++ release s ∧
  active (trace (changeWidget H5PEditor name s).2) = [] ∧
  self_widget (changeWidget H5PEditor name s).2 = self_widget s ∧
  helpText (changeWidget H5PEditor name s).2 = helpText s ∧
  wrapper (changeWidget H5PEditor name s).2 = wrapper s.
Proof.
  intros Hs0 Hreach Hname.
  destruct (reachable_consistent H5PEditor s0 s
              (constructed_consistent _ _ _ _ _ Hs0) Hreach)
    as ([_ Hlive] & _ & _).
  destruct (changeWidget_spec H5PEditor name s) as (Htr & _ & _ & _ & Hm).
  destruct (changeWidget_presentation H5PEditor name s) as (_ & _ & Hp).
  rewrite Hname in Hm, Hp, Htr. simpl in Htr. rewrite app_nil_r in Htr.
  destruct Hm as [-> ->], Hp as [-> ->].
  repeat split; [done|].
  by rewrite Htr, active_app, (release_all s _ Hlive).
Qed.

Lemma failed_change_leaves_no_live_widget_witness :
  ∃ s0, SemanticStructure ex_H5PEditor ex_t ex_two ex_default = Ok s0 ∧
    let s := run_op ex_H5PEditor (OpAppendTo 3) s0 in
    (changeWidget ex_H5PEditor (VStr "nope") s).1 =
      Throw (TypeError "widget is not a constructor") ∧
    active (trace (changeWidget ex_H5PEditor (VStr "nope") s).2) = [] ∧
    self_widget (changeWidget ex_H5PEditor (VStr "nope") s).2 = self_widget s.
Proof.
  destruct (SemanticStructure ex_H5PEditor ex_t ex_two ex_default)
    as [s0|e] eqn:Hs0; [|vm_compute in Hs0; discriminate].
  exists s0. split; [done|]. intros s.
  destruct (failed_change_leaves_no_live_widget ex_H5PEditor ex_t ex_two
              ex_default s0 s (VStr "nope") VUndefined Hs0)
    as (Hthrow & _ & Hlive & Hheld & _).
  - apply reach_step, reach_init.
  - vm_compute; reflexivity.
  - by repeat split.
Defined.

(** ** How [appendTo] ends *)

Section Outcome.

Variable H5PEditor : gmap string member.

(** The result of [appendTo], and the widget held after it. *)
Lemma appendTo_outcome c s :
  match get (default VUndefined (widgets s !! 0)) "name" with
  | Ok name =>
      match getWidget H5PEditor name with
      | MWidget cls =>
          (appendTo H5PEditor c s).1 = Ok tt ∧
          self_widget (appendTo H5PEditor c s).2 =
            Some {| inst_id := instances s; inst_class := cls |}
      | MData _ =>
          (appendTo H5PEditor c s).1 =
            Throw (TypeError "widget is not a constructor") ∧
          self_widget (appendTo H5PEditor c s).2 = self_widget s
      end
  | Throw e =>
      (appendTo H5PEditor c s).1 = Throw e ∧
      self_widget (appendTo H5PEditor c s).2 = self_widget s
  end.
Proof.
  rewrite appendTo_unfold. simpl.
  destruct (get _ "name") as [name|e]; [|done].
  destruct (changeWidget_spec H5PEditor name
              (set_trace (trace s ++ selector_attach c s) s))
    as (_ & _ & _ & _ & Hm).
  destruct (getWidget H5PEditor name) as [cls|v];
    destruct (changeWidget H5PEditor name _) as [r s2];
    simpl in Hm; destruct Hm as [-> Hw]; simpl; by rewrite ?Hw.
Qed.

Lemma getValidWidgets_Ok_readable f dw this_ ws vs :
  get f "widgets" = Ok (VArr ws) →
  getValidWidgets H5PEditor f dw this_ = Ok vs →
  readable ws.
Proof.
  unfold getValidWidgets. intros ->. simpl.
  destruct (collectValid H5PEditor ws []) as [vs'|] eqn:Hvs; [|done].
  intros _. by eapply collectValid_Ok_inv.
Qed.

Lemma count_triggers_app name tr tr' :
  count_triggers name (tr ++ tr') =
    count_triggers name tr + count_triggers name tr'.
Proof. unfold count_triggers. by rewrite filter_app, length_app. Qed.

Lemma count_new_app tr tr' :
  count_new (tr ++ tr') = count_new tr + count_new tr'.
Proof. unfold count_new. by rewrite filter_app, length_app. Qed.

Lemma changeWidget_balanced name s :
  count_triggers "changeWidget" (trace s) = count_new (trace s) →
  count_triggers "changeWidget" (trace (changeWidget H5PEditor name s).2) =
    count_new (trace (changeWidget H5PEditor name s).2).
Proof.
  intros Hs. destruct (changeWidget_spec H5PEditor name s) as (-> & _).
  rewrite !count_triggers_app, !count_new_app, Hs. unfold release.
  by destruct (self_widget s), (getWidget H5PEditor name).
Qed.

Lemma run_op_balanced o s :
  count_triggers "changeWidget" (trace s) = count_new (trace s) →
  count_triggers "changeWidget" (trace (run_op H5PEditor o s)) =
    count_new (trace (run_op H5PEditor o s)).
Proof.
  intros Hs.
  assert (count_triggers "changeWidget"
            (trace s ++ selector_attach (match o with OpAppendTo c => c | _ => 0 end) s) =
          count_new
            (trace s ++ selector_attach (match o with OpAppendTo c => c | _ => 0 end) s))
    as Hs1.
  { rewrite count_triggers_app, count_new_app, Hs. unfold selector_attach.
    by destruct (widgetSelect s). }
  destruct o; simpl; try done.
  - rewrite appendTo_unfold. simpl.
    destruct (get _ "name") as [name|e]; [|done].
    pose proof (changeWidget_balanced name
                  (set_trace (trace s ++ selector_attach container s) s) Hs1)
      as Hs2.
    destruct (changeWidget H5PEditor name _) as [[[]|e] s2]; simpl in *;
      [|done].
    by rewrite count_triggers_app, count_new_app, Hs2.
  - rewrite selectChange_unfold.
    destruct (widgetSelect s) as [os|]; [|done].
    by apply changeWidget_balanced.
  - run_method. destruct (self_widget s); simpl; [|done].
    by rewrite count_triggers_app, count_new_app, Hs.
Qed.

End Outcome.

(** Over the whole life of a wrapper, the [changeWidget] events emitted are
    as many as the widget instances constructed. *)
Theorem one_event_per_construction
    (H5PEditor : gmap string member) (H5PEditor_t : string → string → value)
    (f dw : value) (s0 s : state) :
  SemanticStructure H5PEditor H5PEditor_t f dw = Ok s0 →
  reachable H5PEditor s0 s →
  count_triggers "changeWidget" (trace s) = count_new (trace s).
Proof.
  intros Hs0. induction 1 as [|s o _ IH].
  - apply SemanticStructure_Ok_inv in Hs0 as (_ & _ & _ & _ & Htr & _).
    by rewrite Htr.
  - by apply run_op_balanced.
Qed.

Lemma one_event_per_construction_witness :
  ∃ s0, SemanticStructure ex_H5PEditor ex_t ex_two ex_default = Ok s0 ∧
    let s := run_op ex_H5PEditor (OpSelect (VStr "html"))
               (run_op ex_H5PEditor (OpAppendTo 3) s0) in
    count_triggers "changeWidget" (trace s) = count_new (trace s).
Proof.
  destruct (SemanticStructure ex_H5PEditor ex_t ex_two ex_default)
    as [s0|e] eqn:Hs0; [|vm_compute in Hs0; discriminate].
  exists s0. split; [done|].
  apply (one_event_per_construction ex_H5PEditor ex_t ex_two ex_default s0 _ Hs0).
  do 2 apply reach_step. apply reach_init.
Defined.

(** ** Mounting, by the way the candidates were resolved *)

(** A wrapper whose declared candidates all failed to resolve can never be
    mounted: in every state it reaches no widget is held or live, and
    [appendTo] throws on reading the name of its only candidate, which is
    [undefined]. *)
Theorem unresolved_widgets_never_mount
    (H5PEditor : gmap string member) (H5PEditor_t : string → string → value)
    (f dw : value) (ws : list value) (s0 s : state) (c : nat) :
  get f "widgets" = Ok (VArr ws) →
  Forall (λ w, resolves H5PEditor w = false) ws →
  SemanticStructure H5PEditor H5PEditor_t f dw = Ok s0 →
  reachable H5PEditor s0 s →
  (appendTo H5PEditor c s).1 =
    Throw (TypeError "Cannot read properties of undefined") ∧
  self_widget s = None ∧
  active (trace s) = [].
Proof.
  intros Hf Hnone Hs0 Hreach.
  pose proof (SemanticStructure_Ok_inv _ _ _ _ _ Hs0)
    as (_ & Hself & Hws & Hw0 & _ & _ & _ & Hsel & _).
  pose proof (getValidWidgets_Ok_readable _ _ _ _ _ _ Hf Hws) as Hread.
  rewrite (getValidWidgets_array _ _ _ _ ws Hf Hread) in Hws.
  rewrite (filter_none (λ w, resolves H5PEditor w) ws) in Hws.
  2:{ intros w Hw. rewrite Forall_forall in Hnone.
      rewrite (Hnone w Hw). by intros []. }
  rewrite Hself, self_default_undefined in Hws. simpl in Hws.
  injection Hws as Hws.
  assert (widgetSelect s0 = None) as Hsel0.
  { destruct (widgetSelect s0) as [os|]; [|done].
    destruct Hsel as [Hlen _]. rewrite <- Hws in Hlen. simpl in Hlen. lia. }
  assert (self_widget s = None) as Hnow.
  { clear c. induction Hreach as [|s o Hreach IH]; [done|].
    destruct (reachable_consistent H5PEditor s0 s
                (constructed_consistent _ _ _ _ _ Hs0) Hreach)
      as (_ & Hwss & Hsels).
    destruct o; simpl; try done.
    - pose proof (appendTo_outcome H5PEditor container s) as Hout.
      rewrite Hwss, <- Hws in Hout. simpl in Hout.
      destruct Hout as [_ ->]. done.
    - by rewrite selectChange_unfold, Hsels, Hsel0.
    - run_method. by rewrite IH. }
  destruct (reachable_consistent H5PEditor s0 s
              (constructed_consistent _ _ _ _ _ Hs0) Hreach)
    as ([_ Hlive] & Hwss & _).
  split; [|split; [done|]].
  - pose proof (appendTo_outcome H5PEditor c s) as Hout.
    rewrite Hwss, <- Hws in Hout. simpl in Hout. by destruct Hout as [-> _].
  - unfold held in Hlive. rewrite Hnow in Hlive.
    destruct (active (trace s)) as [|i l]; [done|].
    by specialize (Hlive i (list_elem_of_here _ _)) as ?%not_elem_of_nil.
Qed.

Lemma unresolved_widgets_never_mount_witness :
  ∃ s0, SemanticStructure ex_H5PEditor ex_t ex_unregistered ex_default = Ok s0 ∧
    (appendTo ex_H5PEditor 3 (run_op ex_H5PEditor (OpAppendTo 3) s0)).1 =
      Throw (TypeError "Cannot read properties of undefined") ∧
    self_widget (run_op ex_H5PEditor (OpAppendTo 3) s0) = None.
Proof.
  destruct (SemanticStructure ex_H5PEditor ex_t ex_unregistered ex_default)
    as [s0|e] eqn:Hs0; [|vm_compute in Hs0; discriminate].
  exists s0. split; [done|].
  destruct (unresolved_widgets_never_mount ex_H5PEditor ex_t ex_unregistered
              ex_default [candidate "nope" "Nope"] s0
              (run_op ex_H5PEditor (OpAppendTo 3) s0) 3)
    as (Hthrow & Hnone & _).
  - vm_compute; reflexivity.
  - constructor; [vm_compute; reflexivity|constructor].
  - exact Hs0.
  - apply reach_step, reach_init.
  - by split.
Defined.

(** When every declared candidate that resolves has a name (neither
    undefined nor null) that is a widget class of the namespace, and at least
    one resolves, the wrapper can always be mounted and its selector always
    be used: in every state the wrapper reaches, [appendTo] returns normally,
    and so does the change handler for the value of any option of the
    selector. *)
Theorem resolved_candidates_always_mount
    (H5PEditor : gmap string member) (H5PEditor_t : string → string → value)
    (f dw : value) (ws : list value) (s0 s : state) :
  get f "widgets" = Ok (VArr ws) →
  Forall (λ w, resolves H5PEditor w = true →
               is_nullish (prop w "name") = false ∧
               ∃ c, getWidget H5PEditor (prop w "name") = MWidget c) ws →
  filter (λ w, resolves H5PEditor w) ws ≠ [] →
  SemanticStructure H5PEditor H5PEditor_t f dw = Ok s0 →
  reachable H5PEditor s0 s →
  (∀ k, (appendTo H5PEditor k s).1 = Ok tt) ∧
  (∀ os o, widgetSelect s = Some os → o ∈ os →
           (selectChange H5PEditor (VStr (to_string (opt_value o))) s).1 =
             Ok tt).
Proof.
  intros Hf Hcls Hsome Hs0 Hreach.
  pose proof (SemanticStructure_Ok_inv _ _ _ _ _ Hs0)
    as (_ & _ & Hws & _ & _ & _ & _ & Hsel & _).
  pose proof (getValidWidgets_Ok_readable _ _ _ _ _ _ Hf Hws) as Hread.
  rewrite (getValidWidgets_array _ _ _ _ ws Hf Hread) in Hws.
  rewrite bool_decide_eq_false_2 in Hws
    by (intros Hlen; by apply nil_length_inv in Hlen).
  injection Hws as Hws.
  assert (∀ w, w ∈ widgets s0 →
            ∃ cls, get w "name" = Ok (prop w "name") ∧
                   getWidget H5PEditor (prop w "name") = MWidget cls) as Hall.
  { intros w Hw. rewrite <- Hws in Hw.
    apply list_elem_of_filter in Hw as [Hres Hw].
    unfold readable in Hread. rewrite Forall_forall in Hcls, Hread.
    destruct (Hcls w Hw) as (_ & cls & Hc); [by apply Is_true_true|].
    exists cls. by rewrite (get_Ok _ _ (Hread w Hw)). }
  destruct (reachable_consistent H5PEditor s0 s
              (constructed_consistent _ _ _ _ _ Hs0) Hreach)
    as (_ & Hwss & Hsels).
  split.
  - intros k. pose proof (appendTo_outcome H5PEditor k s) as Hout.
    rewrite Hwss in Hout.
    destruct (widgets s0) as [|w vs] eqn:Hvs; [by rewrite <- Hws in Hsome|].
    simpl in Hout.
    destruct (Hall w (list_elem_of_here _ _)) as (cls & Hn & Hc).
    rewrite Hn, Hc in Hout. by destruct Hout as [-> _].
  - intros os o Hos Ho. rewrite selectChange_unfold, Hos.
    rewrite Hsels in Hos. rewrite Hos in Hsel.
    destruct Hsel as [_ Hbuild%buildOptions_spec].
    apply list_elem_of_lookup_1 in Ho as [i Ho].
    destruct (Forall2_lookup_r _ _ _ _ _ Hbuild Ho) as (w & Hw & Hname & _).
    destruct (Hall w) as (cls & Hn & Hc).
    { by eapply list_elem_of_lookup_2. }
    rewrite Hname in Hn. injection Hn as Hn.
    destruct (changeWidget_spec H5PEditor (VStr (to_string (opt_value o))) s)
      as (_ & _ & _ & _ & Hm).
    change (getWidget H5PEditor (VStr (to_string (opt_value o)))) with
      (getWidget H5PEditor (opt_value o)) in Hm.
    rewrite Hn in Hm |- *. rewrite Hc in Hm. by destruct Hm as [-> _].
Qed.

Lemma resolved_candidates_always_mount_witness :
  ∃ s0, SemanticStructure ex_H5PEditor ex_t ex_two ex_default = Ok s0 ∧
    let s := run_op ex_H5PEditor (OpSelect (VStr "html"))
               (run_op ex_H5PEditor (OpAppendTo 3) s0) in
    (∀ k, (appendTo ex_H5PEditor k s).1 = Ok tt) ∧
    (∀ os o, widgetSelect s = Some os → o ∈ os →
             (selectChange ex_H5PEditor (VStr (to_string (opt_value o))) s).1 =
               Ok tt).
Proof.
  destruct (SemanticStructure ex_H5PEditor ex_t ex_two ex_default)
    as [s0|e] eqn:Hs0; [|vm_compute in Hs0; discriminate].
  exists s0. split; [done|].
  apply (resolved_candidates_always_mount ex_H5PEditor ex_t ex_two ex_default
           [candidate "text" "Text"; candidate "nope" "Nope";
            candidate "html" "Html"] s0).
  - vm_compute; reflexivity.
  - constructor; [|constructor; [|constructor; [|constructor]]]; intros Hres.
    + split; [vm_compute; reflexivity|].
      exists text_widget. vm_compute; reflexivity.
    + vm_compute in Hres. discriminate.
    + split; [vm_compute; reflexivity|].
      exists html_widget. vm_compute; reflexivity.
  - vm_compute. discriminate.
  - exact Hs0.
  - do 2 apply reach_step. apply reach_init.
Defined.

(** Without a [widgets] property the default widget is taken as it is, not
    looked up at construction: the wrapper has that one candidate and no
    selector, and [appendTo] throws when the default is undefined or null
    (its name cannot be read) or when its name has no member in the
    namespace or one that is no function, and mounts it when its name is a
    widget class. *)
Theorem default_widget_is_not_validated
    (H5PEditor : gmap string member) (H5PEditor_t : string → string → value)
    (f dw : value) (s0 s : state) (c : nat) :
  get f "widgets" = Ok VUndefined →
  SemanticStructure H5PEditor H5PEditor_t f dw = Ok s0 →
  reachable H5PEditor s0 s →
  widgets s = [dw] ∧
  widgetSelect s = None ∧
  (appendTo H5PEditor c s).1 =
    match get dw "name" with
    | Ok name =>
        match getWidget H5PEditor name with
        | MWidget _ => Ok tt
        | MData _ => Throw (TypeError "widget is not a constructor")
        end
    | Throw e => Throw e
    end.
Proof.
  intros Hf Hs0 Hreach.
  pose proof (SemanticStructure_Ok_inv _ _ _ _ _ Hs0)
    as (_ & _ & Hws & _ & _ & _ & _ & Hsel & _).
  rewrite (getValidWidgets_absent _ _ _ _ Hf) in Hws. injection Hws as Hws.
  destruct (reachable_consistent H5PEditor s0 s
              (constructed_consistent _ _ _ _ _ Hs0) Hreach)
    as (_ & Hwss & Hsels).
  rewrite Hwss, Hsels, <- Hws. split; [done|]. split.
  - destruct (widgetSelect s0) as [os|]; [|done].
    destruct Hsel as [Hlen _]. rewrite <- Hws in Hlen. simpl in Hlen. lia.
  - pose proof (appendTo_outcome H5PEditor c s) as Hout.
    rewrite Hwss, <- Hws in Hout. simpl in Hout.
    destruct (get dw "name") as [name|e]; [|by destruct Hout as [-> _]].
    destruct (getWidget H5PEditor name); by destruct Hout as [-> _].
Qed.

Lemma default_widget_is_not_validated_witness :
  ∃ s0, SemanticStructure ex_H5PEditor ex_t ex_plain (candidate "nope" "Nope")
          = Ok s0 ∧
    widgets s0 = [candidate "nope" "Nope"] ∧
    (appendTo ex_H5PEditor 3 s0).1 =
      Throw (TypeError "widget is not a constructor").
Proof.
  destruct (SemanticStructure ex_H5PEditor ex_t ex_plain (candidate "nope" "Nope"))
    as [s0|e] eqn:Hs0; [|vm_compute in Hs0; discriminate].
  exists s0. split; [done|].
  destruct (default_widget_is_not_validated ex_H5PEditor ex_t ex_plain
              (candidate "nope" "Nope") s0 s0 3)
    as (Hws & _ & Hout).
  - vm_compute; reflexivity.
  - exact Hs0.
  - apply reach_init.
  - split; [done|]. rewrite Hout. vm_compute; reflexivity.
Defined.
